(** * DOTM Redis namespace builder ([backend/dotm_namespace.py])

    The module under verification is the class [DOTMNamespace]: its
    constructor fills the attributes of a fresh instance with Redis key
    prefixes, by string concatenation from the literal ['dotm'] and an
    optional history key.

    The embedding follows the Python text statement by statement.  An
    instance is its attribute dictionary; every [self.x = e] is an attribute
    store, every [self.x] in an expression an attribute load that raises
    [AttributeError] when the attribute is unset, and [+] is Python's binary
    add, which raises [TypeError] unless both operands are strings.  The
    constructor is a computation in a state-and-exception monad over the
    attribute dictionary.

    Python strings are modelled by [string]; all literals of the source are
    ASCII, and concatenation and equality of strings are concatenation and
    equality of their encodings. *)

From Stdlib Require Import String Ascii List Lia.
From stdpp Require Import gmap strings fin_maps.

Local Open Scope string_scope.

Module DOTMNamespace.

(** ** Values and exceptions *)

(** The values the constructor handles: [None] (the default of
    [history_key]) and strings. *)
Inductive pyval : Type :=
  | PyNone : pyval
  | PyStr : string -> pyval.

Inductive pyexn : Type :=
  | AttributeError : string -> pyexn
  | TypeError : pyexn.

(** Truth value testing, as performed by [if history_key:].  [None] is
    false, a string is true exactly when it is not empty. *)
Definition truthy (v : pyval) : bool :=
  match v with
  | PyNone => false
  | PyStr EmptyString => false
  | PyStr (String _ _) => true
  end.

(** The instance dictionary of an object. *)
Abbreviation pyobj := (gmap string pyval).

(** The attributes of the class itself, found on an instance when its own
    dictionary has no entry of that name. *)
Definition version : pyval := PyStr "0.2.0".

Definition class_attrs : pyobj := {[ "version" := version ]}.

(** ** The monad of attribute-mutating, possibly raising computations *)

Definition M (A : Type) : Type := pyobj -> pyexn + (A * pyobj).

Definition ret {A} (a : A) : M A := fun self => inr (a, self).

Definition raise {A} (e : pyexn) : M A := fun _ => inl e.

Definition bind {A B} (m : M A) (k : A -> M B) : M B :=
  fun self =>
    match m self with
    | inl e => inl e
    | inr (a, self') => k a self'
    end.

Declare Scope py_scope.
Delimit Scope py_scope with py.
Notation "x <- c1 ;; c2" := (bind c1 (fun x => c2))
  (at level 100, c1 at next level, right associativity) : py_scope.
Notation "c1 ;; c2" := (bind c1 (fun _ => c2))
  (at level 100, right associativity) : py_scope.

(** [self.name] in an expression: the instance dictionary first, then the
    class. *)
Definition getattr (name : string) : M pyval :=
  fun self =>
    match self !! name with
    | Some v => inr (v, self)
    | None =>
        match class_attrs !! name with
        | Some v => inr (v, self)
        | None => inl (AttributeError name)
        end
    end.

(** [self.name = v]. *)
Definition setattr (name : string) (v : pyval) : M unit :=
  fun self => inr (tt, <[name := v]> self).

(** [a + b]: defined on two strings only. *)
Definition add (a b : pyval) : M pyval :=
  match a, b with
  | PyStr x, PyStr y => ret (PyStr (x ++ y))
  | _, _ => raise TypeError
  end.

(** ** The constructor *)

Definition __init__ (history_key : pyval) : M unit :=
  (setattr "prefix" (PyStr "dotm") ;;

   p <- getattr "prefix" ;; v <- add p (PyStr "::queue") ;;
   setattr "queue" v ;;
   p <- getattr "prefix" ;; v <- add p (PyStr "::history") ;;
   setattr "history" v ;;
   p <- getattr "prefix" ;; v <- add p (PyStr "::config") ;;
   setattr "config" v ;;
   p <- getattr "prefix" ;; v <- add p (PyStr "::state") ;;
   setattr "state" v ;;

   (if truthy history_key then
      k <- add history_key (PyStr "::") ;;
      p <- getattr "prefix" ;; v <- add k p ;;
      setattr "history_prefix" v
    else
      p <- getattr "prefix" ;;
      setattr "history_prefix" p) ;;

   hp <- getattr "history_prefix" ;; v <- add hp (PyStr "::nodes") ;;
   setattr "nodes" v ;;
   hp <- getattr "history_prefix" ;; v <- add hp (PyStr "::connections") ;;
   setattr "connections" v ;;
   hp <- getattr "history_prefix" ;; v <- add hp (PyStr "::services") ;;
   setattr "services" v ;;
   hp <- getattr "history_prefix" ;; v <- add hp (PyStr "::resolver") ;;
   setattr "resolver" v ;;

   hp <- getattr "history_prefix" ;; v <- add hp (PyStr "::checks") ;;
   setattr "checks" v ;;
   c <- getattr "checks" ;; v <- add c (PyStr "::nodes") ;;
   setattr "nodes_checks" v ;;
   c <- getattr "checks" ;; v <- add c (PyStr "::services") ;;
   setattr "services_checks" v)%py.

(** Instantiation [DOTMNamespace(...)]: a fresh instance with an empty
    dictionary is initialised by [__init__]; the parameter [history_key]
    takes its default [None] when the call passes no argument.  The result
    is the initialised instance, or the exception that escaped. *)
Definition construct (arg : option pyval) : pyexn + pyobj :=
  let history_key := match arg with Some v => v | None => PyNone end in
  match __init__ history_key ∅ with
  | inl e => inl e
  | inr (_, self) => inr self
  end.

(** The instance attribute [name] of the object a construction produced,
    when it produced one and the attribute is set. *)
Definition attr (name : string) (r : pyexn + pyobj) : option pyval :=
  match r with
  | inr self => self !! name
  | inl _ => None
  end.

(** The thirteen instance attributes of a namespace. *)
Definition fields : list string :=
  [ "prefix"; "queue"; "history"; "config"; "state"; "history_prefix";
    "nodes"; "connections"; "services"; "resolver";
    "checks"; "nodes_checks"; "services_checks" ].

(** The attributes derived from [history_prefix], with [history_prefix]
    itself. *)
Definition scoped_fields : list string :=
  [ "history_prefix"; "nodes"; "connections"; "services"; "resolver";
    "checks"; "nodes_checks"; "services_checks" ].

End DOTMNamespace.

Import DOTMNamespace.

(** * Closed form of a construction

    The two definitions below are not part of the source: they name the
    dictionary a run of the constructor ends with, and [construct_run]
    proves that [construct] computes it.  Every property is stated on
    [construct] itself. *)

(** The history prefix the constructor settles on. *)
Definition history_prefix_of (arg : option pyval) : string :=
  match arg with
  | Some (PyStr (String a h)) => (String a h ++ "::") ++ "dotm"
  | _ => "dotm"
  end.

(** The instance dictionary built around a history prefix. *)
Definition namespace_of (hp : string) : pyobj :=
  list_to_map
    [ ("prefix", PyStr "dotm");
      ("queue", PyStr ("dotm" ++ "::queue"));
      ("history", PyStr ("dotm" ++ "::history"));
      ("config", PyStr ("dotm" ++ "::config"));
      ("state", PyStr ("dotm" ++ "::state"));
      ("history_prefix", PyStr hp);
      ("nodes", PyStr (hp ++ "::nodes"));
      ("connections", PyStr (hp ++ "::connections"));
      ("services", PyStr (hp ++ "::services"));
      ("resolver", PyStr (hp ++ "::resolver"));
      ("checks", PyStr (hp ++ "::checks"));
      ("nodes_checks", PyStr ((hp ++ "::checks") ++ "::nodes"));
      ("services_checks", PyStr ((hp ++ "::checks") ++ "::services")) ].

(** * Auxiliary definitions for the further properties

    None of these is part of the source either; they serve the proofs of
    the last part of the file. *)

(** The attributes that are built from [prefix] directly. *)
Definition unscoped_fields : list string :=
  [ "queue"; "history"; "config"; "state" ].

(** The thirteen attribute stores of [__init__], in the order of the source,
    on top of the dictionary [base] the instance starts with. *)
Definition stores (hp : string) (base : pyobj) : pyobj :=
  <["services_checks" := PyStr ((hp ++ "::checks") ++ "::services")]>
  (<["nodes_checks" := PyStr ((hp ++ "::checks") ++ "::nodes")]>
  (<["checks" := PyStr (hp ++ "::checks")]>
  (<["resolver" := PyStr (hp ++ "::resolver")]>
  (<["services" := PyStr (hp ++ "::services")]>
  (<["connections" := PyStr (hp ++ "::connections")]>
  (<["nodes" := PyStr (hp ++ "::nodes")]>
  (<["history_prefix" := PyStr hp]>
  (<["state" := PyStr ("dotm" ++ "::state")]>
  (<["config" := PyStr ("dotm" ++ "::config")]>
  (<["history" := PyStr ("dotm" ++ "::history")]>
  (<["queue" := PyStr ("dotm" ++ "::queue")]>
  (<["prefix" := PyStr "dotm"]> base)))))))))))).

(** What a truthy history key puts in front of ["dotm"]. *)
Definition scope_of (arg : option pyval) : string :=
  match arg with
  | Some (PyStr (String a h)) => String a h ++ "::"
  | _ => ""
  end.

(** [string_drop n s] is [s] without its first [n] characters. *)
Fixpoint string_drop (n : nat) (s : string) : string :=
  match n, s with
  | O, _ => s
  | S n, String _ s => string_drop n s
  | S _, EmptyString => EmptyString
  end.

(** Whether the shorter of [t1], [t2] is the end of the longer; two strings
    [p1 ++ t1] and [p2 ++ t2] can only be equal when it is. *)
Definition tails_clash (t1 t2 : string) : bool :=
  if Nat.leb (String.length t1) (String.length t2)
  then String.eqb t1 (string_drop (String.length t2 - String.length t1) t2)
  else String.eqb t2 (string_drop (String.length t1 - String.length t2) t1).

(** * Strings *)

Section StringFacts.

Lemma append_cons (x : ascii) (a b : string) :
  String x a ++ b = String x (a ++ b).
Proof. reflexivity. Qed.

Lemma append_assoc (a b c : string) : (a ++ b) ++ c = a ++ (b ++ c).
Proof.
  induction a as [|x a IH]; [reflexivity|].
  now rewrite !append_cons, IH.
Qed.

Lemma append_length (a b : string) :
  String.length (a ++ b) = String.length a + String.length b.
Proof.
  induction a as [|x a IH]; [reflexivity|].
  rewrite append_cons; simpl; now rewrite IH.
Qed.

Lemma append_inv_tail (a b t : string) : a ++ t = b ++ t -> a = b.
Proof.
  revert b; induction a as [|x a IH]; intros [|y b] H.
  - reflexivity.
  - apply (f_equal String.length) in H.
    rewrite !append_length in H; simpl in H; lia.
  - apply (f_equal String.length) in H.
    rewrite !append_length in H; simpl in H; lia.
  - rewrite !append_cons in H. injection H as -> H.
    now rewrite (IH b H).
Qed.

Lemma append_longer (a t : string) : a <> "" -> a ++ t <> t.
Proof.
  intros Ha H. apply (f_equal String.length) in H.
  rewrite append_length in H.
  destruct a; [congruence | simpl in H; lia].
Qed.

End StringFacts.

(** * Running the constructor *)

Lemma construct_run (arg : option pyval) :
  construct arg = inr (namespace_of (history_prefix_of arg)).
Proof.
  destruct arg as [[|[|a h]]|]; reflexivity.
Qed.

Lemma attr_run (name : string) (arg : option pyval) :
  attr name (construct arg) = namespace_of (history_prefix_of arg) !! name.
Proof. now rewrite construct_run. Qed.

(** Reading each attribute off the final dictionary. *)
Section NamespaceLookup.
Variable hp : string.

Lemma ns_prefix : namespace_of hp !! "prefix" = Some (PyStr "dotm").
Proof. reflexivity. Qed.
Lemma ns_queue : namespace_of hp !! "queue" = Some (PyStr "dotm::queue").
Proof. reflexivity. Qed.
Lemma ns_history :
  namespace_of hp !! "history" = Some (PyStr "dotm::history").
Proof. reflexivity. Qed.
Lemma ns_config : namespace_of hp !! "config" = Some (PyStr "dotm::config").
Proof. reflexivity. Qed.
Lemma ns_state : namespace_of hp !! "state" = Some (PyStr "dotm::state").
Proof. reflexivity. Qed.
Lemma ns_history_prefix :
  namespace_of hp !! "history_prefix" = Some (PyStr hp).
Proof. reflexivity. Qed.
Lemma ns_nodes : namespace_of hp !! "nodes" = Some (PyStr (hp ++ "::nodes")).
Proof. reflexivity. Qed.
Lemma ns_connections :
  namespace_of hp !! "connections" = Some (PyStr (hp ++ "::connections")).
Proof. reflexivity. Qed.
Lemma ns_services :
  namespace_of hp !! "services" = Some (PyStr (hp ++ "::services")).
Proof. reflexivity. Qed.
Lemma ns_resolver :
  namespace_of hp !! "resolver" = Some (PyStr (hp ++ "::resolver")).
Proof. reflexivity. Qed.
Lemma ns_checks :
  namespace_of hp !! "checks" = Some (PyStr (hp ++ "::checks")).
Proof. reflexivity. Qed.
Lemma ns_nodes_checks :
  namespace_of hp !! "nodes_checks"
  = Some (PyStr ((hp ++ "::checks") ++ "::nodes")).
Proof. reflexivity. Qed.
Lemma ns_services_checks :
  namespace_of hp !! "services_checks"
  = Some (PyStr ((hp ++ "::checks") ++ "::services")).
Proof. reflexivity. Qed.
End NamespaceLookup.

Create Rewrite HintDb ns.
#[local] Hint Rewrite attr_run ns_prefix ns_queue ns_history ns_config ns_state
  ns_history_prefix ns_nodes ns_connections ns_services ns_resolver
  ns_checks ns_nodes_checks ns_services_checks : ns.

(** Evaluate every attribute read of a construction in the goal. *)
Ltac read_attrs := autorewrite with ns.

(** The two branches of [if history_key:]. *)
Lemma history_prefix_of_scoped (h : string) :
  h <> "" -> history_prefix_of (Some (PyStr h)) = h ++ "::dotm".
Proof.
  intros Hh. destruct h as [|a h]; [congruence|].
  simpl. now rewrite append_assoc.
Qed.

Lemma history_prefix_of_empty : history_prefix_of (Some (PyStr "")) = "dotm".
Proof. reflexivity. Qed.

Lemma history_prefix_of_absent : history_prefix_of None = "dotm".
Proof. reflexivity. Qed.

Lemma history_prefix_of_none : history_prefix_of (Some PyNone) = "dotm".
Proof. reflexivity. Qed.

(** A scoped prefix is never the live prefix, and distinct history keys give
    distinct scoped prefixes. *)
Lemma scoped_prefix_not_live (h : string) :
  h <> "" ->
  history_prefix_of (Some (PyStr h)) <> history_prefix_of None.
Proof.
  intros Hh. rewrite history_prefix_of_scoped by assumption.
  change (h ++ "::dotm") with (h ++ "::" ++ "dotm").
  rewrite <- append_assoc. apply append_longer.
  destruct h; [congruence | discriminate].
Qed.

Lemma scoped_prefix_inj (h1 h2 : string) :
  h1 <> "" -> h2 <> "" ->
  history_prefix_of (Some (PyStr h1)) = history_prefix_of (Some (PyStr h2)) ->
  h1 = h2.
Proof.
  intros H1 H2. rewrite !history_prefix_of_scoped by assumption.
  apply append_inv_tail.
Qed.

(** Constructions with different history prefixes differ on every scoped
    attribute: each is the history prefix followed by a fixed suffix. *)
Lemma scoped_attrs_differ (a1 a2 : option pyval) :
  history_prefix_of a1 <> history_prefix_of a2 ->
  Forall (fun name => attr name (construct a1) <> attr name (construct a2))
         scoped_fields.
Proof.
  intros Hne.
  repeat constructor; read_attrs; intros Heq; apply Hne;
    injection Heq as Heq;
    repeat (apply append_inv_tail in Heq); exact Heq.
Qed.

(** * The properties of the namespace builder *)

(** C1. Constructing a namespace with no history key yields exactly the
    thirteen attributes prefix = "dotm", queue = "dotm::queue",
    history = "dotm::history", config = "dotm::config",
    state = "dotm::state", history_prefix = "dotm", nodes = "dotm::nodes",
    connections = "dotm::connections", services = "dotm::services",
    resolver = "dotm::resolver", checks = "dotm::checks",
    nodes_checks = "dotm::checks::nodes" and
    services_checks = "dotm::checks::services", and no other. *)
Theorem construct_no_history_key :
  construct None
  = inr (list_to_map
           [ ("prefix", PyStr "dotm");
             ("queue", PyStr "dotm::queue");
             ("history", PyStr "dotm::history");
             ("config", PyStr "dotm::config");
             ("state", PyStr "dotm::state");
             ("history_prefix", PyStr "dotm");
             ("nodes", PyStr "dotm::nodes");
             ("connections", PyStr "dotm::connections");
             ("services", PyStr "dotm::services");
             ("resolver", PyStr "dotm::resolver");
             ("checks", PyStr "dotm::checks");
             ("nodes_checks", PyStr "dotm::checks::nodes");
             ("services_checks", PyStr "dotm::checks::services") ]).
Proof. rewrite construct_run. reflexivity. Qed.

(** C2. For every non-empty string history key [h], the constructed
    history_prefix is [h ++ "::dotm"]; for [h = "run42"] the attributes
    history_prefix, nodes, checks and nodes_checks are "run42::dotm",
    "run42::dotm::nodes", "run42::dotm::checks" and
    "run42::dotm::checks::nodes". *)
Theorem construct_history_key (h : string) :
  h <> "" ->
  attr "history_prefix" (construct (Some (PyStr h)))
  = Some (PyStr (h ++ "::dotm"))
  /\ (let r := construct (Some (PyStr "run42")) in
      attr "history_prefix" r = Some (PyStr "run42::dotm")
      /\ attr "nodes" r = Some (PyStr "run42::dotm::nodes")
      /\ attr "checks" r = Some (PyStr "run42::dotm::checks")
      /\ attr "nodes_checks" r = Some (PyStr "run42::dotm::checks::nodes")).
Proof.
  intros Hh. split.
  - read_attrs. now rewrite history_prefix_of_scoped.
  - cbv zeta. read_attrs. repeat split; reflexivity.
Qed.

Lemma construct_history_key_witness :
  attr "history_prefix" (construct (Some (PyStr "2014")))
  = Some (PyStr ("2014" ++ "::dotm"))
  /\ (let r := construct (Some (PyStr "run42")) in
      attr "history_prefix" r = Some (PyStr "run42::dotm")
      /\ attr "nodes" r = Some (PyStr "run42::dotm::nodes")
      /\ attr "checks" r = Some (PyStr "run42::dotm::checks")
      /\ attr "nodes_checks" r = Some (PyStr "run42::dotm::checks::nodes")).
Proof. apply (construct_history_key "2014"). discriminate. Defined.

(** C3. Whatever the history key (any string, [None], or no argument), the
    attributes queue, history, config and state are exactly "dotm::queue",
    "dotm::history", "dotm::config" and "dotm::state". *)
Theorem live_fields_unscoped (arg : option pyval) :
  attr "queue" (construct arg) = Some (PyStr "dotm::queue")
  /\ attr "history" (construct arg) = Some (PyStr "dotm::history")
  /\ attr "config" (construct arg) = Some (PyStr "dotm::config")
  /\ attr "state" (construct arg) = Some (PyStr "dotm::state").
Proof. read_attrs. repeat split. Qed.

(** C4, as the spec states it, fails on the empty string: the constructor
    tests the truth value of the history key, so an empty key leaves
    history_prefix at "dotm" instead of "::dotm". *)
Lemma history_prefix_empty_key_not_spliced :
  attr "history_prefix" (construct (Some (PyStr "")))
  <> Some (PyStr ("" ++ "::" ++ "dotm")).
Proof. read_attrs. discriminate. Qed.

(** C4, amended. For every string history key [h] that is not empty,
    history_prefix is [h ++ "::" ++ prefix]; when the key is the empty
    string, [None], or not given, history_prefix is prefix, "dotm". *)
Theorem history_prefix_rule (h : string) :
  attr "prefix" (construct (Some (PyStr h))) = Some (PyStr "dotm")
  /\ attr "history_prefix" (construct (Some (PyStr h)))
     = Some (PyStr (if decide (h = "") then "dotm" else h ++ "::" ++ "dotm"))
  /\ attr "history_prefix" (construct (Some PyNone)) = Some (PyStr "dotm")
  /\ attr "history_prefix" (construct None) = Some (PyStr "dotm").
Proof.
  read_attrs. repeat split.
  case_decide as Hh.
  - now subst h.
  - now rewrite history_prefix_of_scoped.
Qed.

(** C5. For every input, the constructed attributes satisfy
    nodes = history_prefix ++ "::nodes",
    connections = history_prefix ++ "::connections",
    services = history_prefix ++ "::services",
    resolver = history_prefix ++ "::resolver",
    checks = history_prefix ++ "::checks",
    nodes_checks = checks ++ "::nodes" and
    services_checks = checks ++ "::services". *)
Theorem derived_fields (arg : option pyval) :
  exists hp checks : string,
    attr "history_prefix" (construct arg) = Some (PyStr hp)
    /\ attr "checks" (construct arg) = Some (PyStr checks)
    /\ attr "nodes" (construct arg) = Some (PyStr (hp ++ "::nodes"))
    /\ attr "connections" (construct arg)
       = Some (PyStr (hp ++ "::connections"))
    /\ attr "services" (construct arg) = Some (PyStr (hp ++ "::services"))
    /\ attr "resolver" (construct arg) = Some (PyStr (hp ++ "::resolver"))
    /\ checks = hp ++ "::checks"
    /\ attr "nodes_checks" (construct arg)
       = Some (PyStr (checks ++ "::nodes"))
    /\ attr "services_checks" (construct arg)
       = Some (PyStr (checks ++ "::services")).
Proof.
  exists (history_prefix_of arg), (history_prefix_of arg ++ "::checks").
  read_attrs. repeat split.
Qed.

(** C7. Construction is total: for every string history key (the empty one
    included), for [None] and for no argument, no exception escapes and the
    instance has exactly the thirteen attributes, each holding a string. *)
Theorem construct_total (arg : option pyval) :
  exists self : pyobj,
    construct arg = inr self
    /\ dom self = list_to_set fields
    /\ Forall (fun name => exists s : string, self !! name = Some (PyStr s))
              fields.
Proof.
  exists (namespace_of (history_prefix_of arg)). split; [|split].
  - apply construct_run.
  - reflexivity.
  - repeat constructor; eexists; reflexivity.
Qed.

(** C8. History-scoped keys do not collide with live keys: for every
    non-empty history key [h], each of history_prefix, nodes, connections,
    services, resolver, checks, nodes_checks and services_checks of the
    construction with [h] differs from that of the construction with no
    history key. *)
Theorem scoped_differs_from_live (h : string) :
  h <> "" ->
  let scoped := construct (Some (PyStr h)) in
  let live := construct None in
  attr "history_prefix" scoped <> attr "history_prefix" live
  /\ attr "nodes" scoped <> attr "nodes" live
  /\ attr "connections" scoped <> attr "connections" live
  /\ attr "services" scoped <> attr "services" live
  /\ attr "resolver" scoped <> attr "resolver" live
  /\ attr "checks" scoped <> attr "checks" live
  /\ attr "nodes_checks" scoped <> attr "nodes_checks" live
  /\ attr "services_checks" scoped <> attr "services_checks" live.
Proof.
  intros Hh scoped live.
  pose proof (scoped_attrs_differ _ _ (scoped_prefix_not_live h Hh)) as HF.
  unfold scoped_fields in HF.
  repeat (apply Forall_cons_iff in HF as [? HF]).
  repeat split; assumption.
Qed.

Lemma scoped_differs_from_live_witness :
  let scoped := construct (Some (PyStr "run42")) in
  let live := construct None in
  attr "history_prefix" scoped <> attr "history_prefix" live
  /\ attr "nodes" scoped <> attr "nodes" live
  /\ attr "connections" scoped <> attr "connections" live
  /\ attr "services" scoped <> attr "services" live
  /\ attr "resolver" scoped <> attr "resolver" live
  /\ attr "checks" scoped <> attr "checks" live
  /\ attr "nodes_checks" scoped <> attr "nodes_checks" live
  /\ attr "services_checks" scoped <> attr "services_checks" live.
Proof. apply (scoped_differs_from_live "run42"). discriminate. Defined.

(** C9. Constructing with the empty string as history key yields the same
    instance, field for field, as constructing with no history key; in
    particular history_prefix is "dotm". *)
Theorem empty_key_is_absent :
  construct (Some (PyStr "")) = construct None
  /\ (forall name : string,
        attr name (construct (Some (PyStr ""))) = attr name (construct None))
  /\ attr "history_prefix" (construct (Some (PyStr ""))) = Some (PyStr "dotm").
Proof.
  split; [|split].
  - now rewrite !construct_run.
  - intros name. now rewrite !attr_run.
  - now read_attrs.
Qed.

(** C10. On non-empty keys the history key determines the scope
    injectively: two distinct non-empty keys give different
    history_prefix values, and different nodes, connections, services,
    resolver, checks, nodes_checks and services_checks. *)
Theorem scoped_injective (h1 h2 : string) :
  h1 <> "" -> h2 <> "" -> h1 <> h2 ->
  let r1 := construct (Some (PyStr h1)) in
  let r2 := construct (Some (PyStr h2)) in
  attr "history_prefix" r1 <> attr "history_prefix" r2
  /\ attr "nodes" r1 <> attr "nodes" r2
  /\ attr "connections" r1 <> attr "connections" r2
  /\ attr "services" r1 <> attr "services" r2
  /\ attr "resolver" r1 <> attr "resolver" r2
  /\ attr "checks" r1 <> attr "checks" r2
  /\ attr "nodes_checks" r1 <> attr "nodes_checks" r2
  /\ attr "services_checks" r1 <> attr "services_checks" r2.
Proof.
  intros H1 H2 Hne r1 r2.
  assert (history_prefix_of (Some (PyStr h1))
          <> history_prefix_of (Some (PyStr h2))) as Hp
    by (intros Heq; apply Hne; now apply scoped_prefix_inj).
  pose proof (scoped_attrs_differ _ _ Hp) as HF.
  unfold scoped_fields in HF.
  repeat (apply Forall_cons_iff in HF as [? HF]).
  repeat split; assumption.
Qed.

Lemma scoped_injective_witness :
  let r1 := construct (Some (PyStr "run42")) in
  let r2 := construct (Some (PyStr "run43")) in
  attr "history_prefix" r1 <> attr "history_prefix" r2
  /\ attr "nodes" r1 <> attr "nodes" r2
  /\ attr "connections" r1 <> attr "connections" r2
  /\ attr "services" r1 <> attr "services" r2
  /\ attr "resolver" r1 <> attr "resolver" r2
  /\ attr "checks" r1 <> attr "checks" r2
  /\ attr "nodes_checks" r1 <> attr "nodes_checks" r2
  /\ attr "services_checks" r1 <> attr "services_checks" r2.
Proof.
  apply (scoped_injective "run42" "run43"); discriminate.
Defined.

(** * Further properties of the constructor *)

(** ** Running [__init__] on an instance that already has attributes *)

Section Stepping.
Context {B : Type}.

Lemma bind_setattr (name : string) (v : pyval) (k : unit -> M B)
    (self : pyobj) :
  bind (setattr name v) k self = k tt (<[name := v]> self).
Proof. reflexivity. Qed.

Lemma bind_getattr (name : string) (v : pyval) (k : pyval -> M B)
    (self : pyobj) :
  self !! name = Some v -> bind (getattr name) k self = k v self.
Proof. intros H. unfold bind, getattr. now rewrite H. Qed.

Lemma bind_add (x y : string) (k : pyval -> M B) (self : pyobj) :
  bind (add (PyStr x) (PyStr y)) k self = k (PyStr (x ++ y)) self.
Proof. reflexivity. Qed.

Lemma bind_assoc {A A' : Type} (m : M A) (f : A -> M A') (g : A' -> M B)
    (self : pyobj) :
  bind (bind m f) g self = bind m (fun a => bind (f a) g) self.
Proof. unfold bind. destruct (m self) as [e|[a self']]; reflexivity. Qed.

End Stepping.

(** Find the value stored last under a name in a chain of stores. *)
Ltac read_store :=
  repeat (rewrite lookup_insert_ne by discriminate); apply lookup_insert_eq.

(** Execute the statement at the head of a run. *)
Ltac step :=
  first [ rewrite bind_assoc
        | rewrite bind_setattr
        | rewrite bind_add
        | erewrite bind_getattr by read_store ];
  cbv beta.

Lemma init_stores (hk : pyval) (self : pyobj) :
  __init__ hk self = inr (tt, stores (history_prefix_of (Some hk)) self).
Proof.
  destruct hk as [|[|a h]]; unfold __init__; cbn [truthy];
    repeat step; reflexivity.
Qed.

Lemma stores_union (hp : string) (self : pyobj) :
  stores hp self = stores hp ∅ ∪ self.
Proof.
  unfold stores. rewrite <- !insert_union_l. now rewrite (left_id_L ∅ (∪)).
Qed.

Lemma construct_stores (arg : option pyval) :
  construct arg = inr (stores (history_prefix_of arg) ∅).
Proof.
  destruct arg as [hk|]; unfold construct; now rewrite init_stores.
Qed.

Lemma stores_dom (hp : string) : dom (stores hp ∅) = list_to_set fields.
Proof. reflexivity. Qed.

Lemma stores_absorb (hp1 hp2 : string) (self : pyobj) :
  stores hp2 (stores hp1 self) = stores hp2 self.
Proof.
  rewrite (stores_union hp2 (stores hp1 self)), (stores_union hp1 self),
    (stores_union hp2 self).
  apply map_eq; intros name. rewrite !lookup_union.
  destruct (stores hp2 ∅ !! name) as [v|] eqn:E2.
  - destruct (stores hp1 ∅ !! name), (self !! name); reflexivity.
  - apply not_elem_of_dom in E2. rewrite stores_dom in E2.
    rewrite <- (stores_dom hp1) in E2. apply not_elem_of_dom in E2.
    rewrite E2. destruct (self !! name); reflexivity.
Qed.

(** C6. Construction is deterministic: the namespace is a function of the
    history key alone.  Two runs of the constructor with the same key (any
    string, also the empty one and those containing "::", [None], or no
    argument) both return, and their thirteen fields are identical, field
    for field, whatever the instance held when either run began; both agree
    with the construction on a fresh instance, which hence gives the same
    namespace every time.  A constructor that read an attribute before
    storing it would let the earlier contents show and break this. *)
Theorem construct_deterministic (arg : option pyval) (self1 self2 : pyobj) :
  let history_key := match arg with Some v => v | None => PyNone end in
  exists fresh out1 out2 : pyobj,
    construct arg = inr fresh
    /\ __init__ history_key self1 = inr (tt, out1)
    /\ __init__ history_key self2 = inr (tt, out2)
    /\ Forall (fun name =>
                 exists s : string,
                   fresh !! name = Some (PyStr s)
                   /\ out1 !! name = Some (PyStr s)
                   /\ out2 !! name = Some (PyStr s))
              fields.
Proof.
  intros history_key.
  assert (history_prefix_of (Some history_key) = history_prefix_of arg) as E
    by (destruct arg; reflexivity).
  exists (stores (history_prefix_of arg) ∅),
         (stores (history_prefix_of arg) self1),
         (stores (history_prefix_of arg) self2).
  rewrite !init_stores, E, construct_stores. repeat split.
  repeat constructor; eexists; repeat split;
    unfold stores; read_store.
Qed.

(** X1. [__init__] run on an instance that already carries attributes, with
    [None] or any string as history key, raises nothing and ends with the
    dictionary of a fresh construction laid over the old one: the thirteen
    fields take the values a fresh instance gets, whatever they held before,
    and every other attribute keeps its value ([∪] prefers its left
    operand). *)
Theorem init_overwrites (hk : pyval) (self : pyobj) :
  exists fresh : pyobj,
    construct (Some hk) = inr fresh
    /\ dom fresh = list_to_set fields
    /\ __init__ hk self = inr (tt, fresh ∪ self).
Proof.
  exists (stores (history_prefix_of (Some hk)) ∅). split; [|split].
  - apply construct_stores.
  - apply stores_dom.
  - rewrite init_stores. now rewrite stores_union.
Qed.

(** X2. Initialising an instance a second time leaves no trace of the first
    initialisation: running [__init__] with key [hk1] and then with key
    [hk2] gives the same result as running it with [hk2] alone, on every
    starting dictionary.  In particular [__init__] is idempotent. *)
Theorem init_twice (hk1 hk2 : pyval) (self : pyobj) :
  (__init__ hk1 ;; __init__ hk2)%py self = __init__ hk2 self.
Proof.
  unfold bind. rewrite !init_stores. now rewrite stores_absorb.
Qed.

(** ** Key prefixes never coincide by accident *)

Lemma string_drop_append (p t : string) :
  string_drop (String.length p) (p ++ t) = t.
Proof. induction p as [|x p IH]; [reflexivity | exact IH]. Qed.

Lemma string_drop_add (n m : nat) (s : string) :
  string_drop (n + m) s = string_drop m (string_drop n s).
Proof.
  revert s; induction n as [|n IH]; intros s; [reflexivity|].
  destruct s as [|x s]; simpl.
  - now destruct m.
  - apply IH.
Qed.

(** Two ways of cutting one string: the shorter tail ends the longer. *)
Lemma common_tail (p1 t1 p2 t2 : string) :
  p1 ++ t1 = p2 ++ t2 ->
  String.length t1 <= String.length t2 ->
  t1 = string_drop (String.length t2 - String.length t1) t2.
Proof.
  intros H Hle.
  pose proof (f_equal String.length H) as Hlen.
  rewrite !append_length in Hlen.
  pose proof (string_drop_append p1 t1) as E. rewrite H in E.
  replace (String.length p1)
    with (String.length p2 + (String.length t2 - String.length t1)) in E
    by lia.
  now rewrite string_drop_add, string_drop_append in E.
Qed.

Lemma tails_clash_sound (p1 t1 p2 t2 : string) :
  p1 ++ t1 = p2 ++ t2 -> tails_clash t1 t2 = true.
Proof.
  intros H. unfold tails_clash.
  destruct (Nat.leb_spec (String.length t1) (String.length t2)) as [Hle|Hlt].
  - apply String.eqb_eq. now apply (common_tail p1 t1 p2 t2).
  - apply String.eqb_eq. apply (common_tail p2 t2 p1 t1); [now symmetry | lia].
Qed.

Lemma history_prefix_of_scope (arg : option pyval) :
  history_prefix_of arg = scope_of arg ++ "dotm".
Proof. destruct arg as [[|[|a h]]|]; reflexivity. Qed.

(** Split a hypothesis [In x l] on a literal list into its cases. *)
Ltac split_in H :=
  simpl in H; repeat (destruct H as [H|H]; [subst|]); try contradiction.

(** Refute an equation between two key prefixes whose fixed endings do not
    fit one another. *)
Ltac clash H :=
  match type of H with
  | ?p1 ++ ?t1 = ?p2 ++ ?t2 => apply tails_clash_sound in H
  | ?p1 ++ ?t1 = ?t2 => apply (tails_clash_sound p1 t1 "" t2) in H
  | ?t1 = ?p2 ++ ?t2 => apply (tails_clash_sound "" t1 p2 t2) in H
  | _ => idtac
  end;
  vm_compute in H; discriminate H.

(** Two fields of any two constructions hold the same string only when they
    are the same field, or both among [prefix] and [history_prefix]. *)
Lemma key_collision (a1 a2 : option pyval) (f g : string) :
  In f fields -> In g fields ->
  attr f (construct a1) = attr g (construct a2) ->
  f = g
  \/ (In f ["prefix"; "history_prefix"] /\ In g ["prefix"; "history_prefix"]).
Proof.
  intros Hf Hg H. unfold fields in Hf, Hg.
  split_in Hf; split_in Hg;
    first [ left; reflexivity
          | right; split; simpl; tauto
          | exfalso;
            autorewrite with ns in H;
            rewrite ?history_prefix_of_scope, ?append_assoc in H;
            injection H as H; clash H ].
Qed.

(** Equal values of one scoped field come from equal history prefixes. *)
Lemma scoped_field_inj (a1 a2 : option pyval) (f : string) :
  In f scoped_fields ->
  attr f (construct a1) = attr f (construct a2) ->
  history_prefix_of a1 = history_prefix_of a2.
Proof.
  intros Hf H. unfold scoped_fields in Hf.
  split_in Hf; autorewrite with ns in H; injection H as H;
    repeat (apply append_inv_tail in H); exact H.
Qed.

Lemma scoped_in_fields (f : string) : In f scoped_fields -> In f fields.
Proof. intros Hf. unfold scoped_fields in Hf. split_in Hf; simpl; tauto. Qed.

Lemma unscoped_in_fields (f : string) : In f unscoped_fields -> In f fields.
Proof.
  intros Hf. unfold unscoped_fields in Hf. split_in Hf; simpl; tauto.
Qed.

(** X3. The scoped key prefixes determine both the field and the scope: if
    a scoped field (history_prefix, nodes, connections, services, resolver,
    checks, nodes_checks, services_checks) of one construction holds the
    same string as a scoped field of another construction, whatever the two
    history keys, then it is the same field and the two constructions are
    equal.  No history key makes, say, the nodes prefix of one scope the
    nodes_checks prefix of another. *)
Theorem scoped_keys_injective (a1 a2 : option pyval) (f g : string) :
  In f scoped_fields -> In g scoped_fields ->
  attr f (construct a1) = attr g (construct a2) ->
  f = g /\ construct a1 = construct a2.
Proof.
  intros Hf Hg H.
  assert (f = g) as <-.
  { destruct (key_collision a1 a2 f g) as [E|[Pf Pg]];
      auto using scoped_in_fields.
    unfold scoped_fields in Hf, Hg.
    split_in Pf; split_in Pg; try reflexivity;
      simpl in Hf, Hg; exfalso; intuition discriminate. }
  split; [reflexivity|].
  rewrite !construct_run. now rewrite (scoped_field_inj a1 a2 f Hf H).
Qed.

Lemma scoped_keys_injective_witness :
  "checks" = "checks" /\ construct (Some (PyStr "")) = construct None.
Proof.
  apply (scoped_keys_injective (Some (PyStr "")) None "checks" "checks").
  - simpl; tauto.
  - simpl; tauto.
  - reflexivity.
Defined.

(** X4. The live keys are reserved: the value of queue, history, config or
    state is never the value of any other field, neither in the same
    construction nor in one made with any other history key.  No history
    key can direct scoped data to the live queue, history ledger, config or
    state. *)
Theorem live_keys_reserved (a1 a2 : option pyval) (f g : string) :
  In f unscoped_fields -> In g fields -> f <> g ->
  attr f (construct a1) <> attr g (construct a2).
Proof.
  intros Hf Hg Hne H.
  destruct (key_collision a1 a2 f g) as [E|[Pf _]];
    auto using unscoped_in_fields.
  unfold unscoped_fields in Hf. split_in Hf; split_in Pf; discriminate.
Qed.

Lemma live_keys_reserved_witness :
  attr "queue" (construct None)
  <> attr "history_prefix" (construct (Some (PyStr "dotm::queue"))).
Proof.
  apply (live_keys_reserved None (Some (PyStr "dotm::queue"))
           "queue" "history_prefix").
  - simpl; tauto.
  - simpl; tauto.
  - discriminate.
Defined.

(** X5. Inside one namespace two different fields hold the same string in
    one case only: prefix and history_prefix, and only when the
    construction is the live one (no history key, or an empty one).  All
    other pairs of the thirteen fields always differ. *)
Theorem namespace_fields_distinct (arg : option pyval) (f g : string) :
  In f fields -> In g fields -> f <> g ->
  attr f (construct arg) = attr g (construct arg) ->
  construct arg = construct None
  /\ ((f = "prefix" /\ g = "history_prefix")
      \/ (f = "history_prefix" /\ g = "prefix")).
Proof.
  intros Hf Hg Hne H.
  destruct (key_collision arg arg f g) as [E|[Pf Pg]]; auto; [contradiction|].
  assert (history_prefix_of arg = history_prefix_of None) as Hp.
  { split_in Pf; split_in Pg; try contradiction;
      autorewrite with ns in H; injection H as H;
      rewrite history_prefix_of_absent; congruence. }
  split.
  - rewrite !construct_run. now rewrite Hp.
  - split_in Pf; split_in Pg; try contradiction; tauto.
Qed.

Lemma namespace_fields_distinct_witness :
  construct (Some (PyStr "")) = construct None
  /\ (("prefix" = "prefix" /\ "history_prefix" = "history_prefix")
      \/ ("prefix" = "history_prefix" /\ "history_prefix" = "prefix")).
Proof.
  apply (namespace_fields_distinct (Some (PyStr "")) "prefix" "history_prefix").
  - simpl; tauto.
  - simpl; tauto.
  - discriminate.
  - reflexivity.
Defined.

(** X6. The constructor never shadows the class attribute [version]: for
    every history key the instance dictionary has no entry of that name,
    and reading [version] on the instance gives the class's "0.2.0". *)
Theorem version_not_shadowed (arg : option pyval) :
  exists self : pyobj,
    construct arg = inr self
    /\ self !! "version" = None
    /\ getattr "version" self = inr (PyStr "0.2.0", self).
Proof.
  exists (namespace_of (history_prefix_of arg)). split; [|split].
  - apply construct_run.
  - reflexivity.
  - reflexivity.
Qed.
